(** * Facts modules for EC2 auto scaling groups and EC2 security groups

    A shallow embedding of

      - lib/ansible/modules/cloud/amazon/ec2_asg_facts.py
      - lib/ansible/modules/cloud/amazon/ec2_group_facts.py

    Both modules are straight-line Python: they read their parameters,
    connect, issue one query against the SDK, reshape the records and call
    [module.exit_json] or [module.fail_json].  The embedding keeps that
    shape: a module run is a computation in a small monad [M] that threads
    the log of SDK calls and stops at [exit_json], at [fail_json] or at an
    exception nobody catches. *)

From stdpp Require Import gmap strings list fin_maps.

Set Warnings "-register-all,-clear-no-such-hyp".
Set Default Proof Using "Type".

(** ** Python values *)

(** The values that travel through the modules: what the SDK hands back and
    what ends up in the JSON result.  A Python dict with string keys is a
    [gmap string pyobj]. *)
Inductive pyobj : Type :=
  | VNone
  | VBool (b : bool)
  | VInt (z : Z)
  | VStr (s : string)
  | VList (l : list pyobj)
  | VDict (d : gmap string pyobj).

Abbreviation pydict := (gmap string pyobj).


(** Truthiness, as used by [if x:] and [if not x:], for the two kinds of
    parameter the modules test: an optional string and an optional list.
    [None], the empty string and the empty list are falsy. *)
Definition truthy_str (o : option string) : bool :=
  match o with
  | Some s => negb (String.eqb s "")
  | None => false
  end.

Definition truthy_list {A : Type} (o : option (list A)) : bool :=
  match o with
  | Some (_ :: _) => true
  | _ => false
  end.

(** ** Exceptions *)

(** The exception classes the two modules import or name, as seen by an
    [except] clause; every other class is [OtherException]. *)
Inductive exc_class : Type :=
  | NoAuthHandlerFound      (* boto.exception *)
  | AnsibleAWSError         (* ansible.module_utils.ec2 *)
  | BotoServerError         (* boto.exception *)
  | ClientError             (* botocore.exceptions *)
  | NoCredentialsError      (* botocore.exceptions *)
  | TypeError
  | OtherException.

#[global] Instance exc_class_eq_dec : EqDecision exc_class.
Proof. solve_decision. Defined.

(** An exception object: its class, what [str(e)] gives, its [message]
    attribute and (for botocore's [ClientError]) its [response]. *)
Record exn : Type := Exn {
  exc_cls : exc_class;
  exc_str : string;
  exc_message : string;
  exc_response : pydict
}.

(** ** Outcomes and the log of SDK calls *)

(** How a run can stop short of [exit_json]: [module.fail_json] with its
    keyword arguments, or an exception that propagates out of [main]. *)
Inductive failure : Type :=
  | FailJson (kwargs : pydict)
  | Uncaught (e : exn).

Inductive outcome : Type :=
  | ExitJson (kwargs : pydict)
  | Failed (f : failure).

(** The calls that go to the SDK. *)
Inductive sdk_call : Type :=
  | connect_to_aws_call (region : option string) (params : pydict)
  | get_all_groups_call (names : option (list string))
  | describe_security_groups_call (Filters : list pyobj).

(** The two query methods; opening a connection is not a query. *)
Definition is_query (c : sdk_call) : bool :=
  match c with
  | connect_to_aws_call _ _ => false
  | get_all_groups_call _ => true
  | describe_security_groups_call _ => true
  end.

(** One entry of the log: the call, and the exception it raised if any. *)
Record event : Type := Ev {
  ev_call : sdk_call;
  ev_raised : option exn
}.

(** ** The monad of module runs *)

(** A computation takes the log so far and gives back either the outcome
    that ended the run or a value to go on with, and the extended log. *)
Definition M (A : Type) : Type := list event → (outcome + A) * list event.

#[global] Instance M_ret : MRet M := λ A a tr, (inr a, tr).

#[global] Instance M_bind : MBind M :=
  λ A B k m tr, match m tr with
                | (inl o, tr') => (inl o, tr')
                | (inr a, tr') => k a tr'
                end.

(** [module.exit_json] and [module.fail_json], given their keyword
    arguments, print the result and leave the interpreter; nothing after
    them runs, and no [except] clause of the modules sees them. *)
Definition exit_json {A : Type} (kwargs : pydict) : M A :=
  λ tr, (inl (ExitJson kwargs), tr).

Definition fail_json {A : Type} (kwargs : pydict) : M A :=
  λ tr, (inl (Failed (FailJson kwargs)), tr).

Definition raise {A : Type} (e : exn) : M A :=
  λ tr, (inl (Failed (Uncaught e)), tr).

(** A framework helper that is not part of the two modules either returns
    or stops the run itself (it has the module object and may call
    [fail_json], or raise). *)
Definition helper {A : Type} (r : failure + A) : M A :=
  λ tr, match r with
        | inl f => (inl (Failed f), tr)
        | inr a => (inr a, tr)
        end.

(** A call into the SDK is logged, then returns or raises. *)
Definition sdk {A : Type} (c : sdk_call) (r : exn + A) : M A :=
  λ tr, match r with
        | inl e => (inl (Failed (Uncaught e)), tr ++ [Ev c (Some e)])
        | inr a => (inr a, tr ++ [Ev c None])
        end.

(** [try: body  except (classes), e: handler].  Only an exception whose
    class is listed is handed to the handler. *)
Definition try_except {A : Type} (body : M A) (classes : list exc_class)
    (handler : exn → M A) : M A :=
  λ tr, match body tr with
        | (inl (Failed (Uncaught e)), tr') =>
            if bool_decide (exc_cls e ∈ classes) then handler e tr'
            else (inl (Failed (Uncaught e)), tr')
        | r => r
        end.

(** [f(msg=m, **extra)]: Python refuses the call with a [TypeError] when
    [extra] has a key [msg] of its own. *)
Definition duplicate_msg : exn :=
  Exn TypeError "fail_json() got multiple values for keyword argument 'msg'"
      "fail_json() got multiple values for keyword argument 'msg'" ∅.

Definition fail_json_msg {A : Type} (msg : string) (extra : pydict) : M A :=
  match extra !! "msg" with
  | Some _ => raise duplicate_msg
  | None => fail_json (<["msg" := VStr msg]> extra)
  end.

(** Running a module from an empty log. *)
Definition run (m : M unit) : (outcome + unit) * list event := m [].

Definition queries (tr : list event) : list event :=
  filter (λ ev, is_query (ev_call ev) = true) tr.


(** [dict(pairs)] and dict displays: the pairs are entered from left to
    right, so a later pair with the same key replaces an earlier one. *)
Definition dict_of (pairs : list (string * pyobj)) : pydict :=
  foldl (λ d kv, <[kv.1 := kv.2]> d) ∅ pairs.

(** ** The SDK objects the modules read *)

Module boto.

(** boto.ec2.autoscale.Tag *)
Record Tag : Type := { key : string; value : pyobj }.

(** boto.ec2.autoscale.Instance *)
Record Instance : Type := { instance_id : pyobj }.

(** boto.ec2.autoscale.AutoScalingGroup: the attributes [main] reads.
    [tags] is read with [getattr(asg, "tags", None)], so it may be
    missing; [tags] and [instances] are [None] or a list. *)
Record AutoScalingGroup : Type := {
  name : pyobj;
  availability_zones : pyobj;
  default_cooldown : pyobj;
  desired_capacity : pyobj;
  health_check_period : pyobj;
  health_check_type : pyobj;
  launch_config_name : pyobj;
  load_balancers : pyobj;
  max_size : pyobj;
  min_size : pyobj;
  placement_group : pyobj;
  vpc_zone_identifier : pyobj;
  termination_policies : pyobj;
  tags : option (list Tag);
  instances : option (list Instance)
}.

(** boto.ec2.autoscale.AutoScaleConnection, with the one method used. *)
Record AutoScaleConnection : Type := {
  get_all_groups : option (list string) → exn + list AutoScalingGroup
}.

End boto.

Module boto3.

(** The reply of [describe_security_groups]; the module reads
    [groups['SecurityGroups']], a list of dicts. *)
Record SecurityGroupsReply : Type := {
  SecurityGroups : list pydict
}.

(** The EC2 client, with the one method used. *)
Record client : Type := {
  describe_security_groups : list pyobj → exn + SecurityGroupsReply
}.

End boto3.

(** ** ec2_asg_facts *)

Module ec2_asg_facts.

(** [module.params], as far as the module reads it: [names] has type
    [list] and default [None]. *)
Record params : Type := { names : option (list string) }.

(** What an invocation finds around it: whether [import boto] worked,
    the framework's [AnsibleModule] constructor and
    [get_aws_connection_info] (each returns, or ends the run itself),
    and [connect_to_aws]. *)
Record env : Type := {
  HAS_BOTO : bool;
  AnsibleModule : failure + params;
  get_aws_connection_info :
    failure + (option string * option string * pydict);
  connect_to_aws :
    option string → pydict → exn + boto.AutoScaleConnection
}.

(** The body of the [for asg in all_asgs] loop, up to [results.append]. *)
Definition data (asg : boto.AutoScalingGroup) : pydict :=
  let data := dict_of [
    ("name", boto.name asg);
    ("availability_zones", boto.availability_zones asg);
    ("default_cooldown", boto.default_cooldown asg);
    ("desired_capacity", boto.desired_capacity asg);
    ("health_check_period", boto.health_check_period asg);
    ("health_check_type", boto.health_check_type asg);
    ("launch_config_name", boto.launch_config_name asg);
    ("load_balancers", boto.load_balancers asg);
    ("max_size", boto.max_size asg);
    ("min_size", boto.min_size asg);
    ("placement_group", boto.placement_group asg);
    ("vpc_zone_identifier", boto.vpc_zone_identifier asg);
    ("termination_policies", boto.termination_policies asg)
  ] in
  let data :=
    if truthy_list (boto.tags asg) then
      <["tags" := VDict (dict_of ((λ t, (boto.key t, boto.value t))
                                    <$> default [] (boto.tags asg)))]> data
    else data in
  let data :=
    if truthy_list (boto.instances asg) then
      <["instances" := VList (boto.instance_id
                                <$> default [] (boto.instances asg))]> data
    else data in
  data.

(** [results = []] followed by the loop. *)
Definition results (all_asgs : list boto.AutoScalingGroup) : list pydict :=
  foldl (λ results asg, results ++ [data asg]) [] all_asgs.

Definition main (w : env) : M unit :=
  module ← helper (AnsibleModule w);
  let asg_names := names module in
  let asg_names := if negb (truthy_list asg_names) then None else asg_names in
  (if negb (HAS_BOTO w)
   then fail_json {[ "msg" := VStr "boto required for this module" ]}
   else mret tt);;
  '(region, ec2_url, aws_connect_params) ←
     helper (get_aws_connection_info w);
  connection ←
    (if truthy_str region then
       try_except
         (sdk (connect_to_aws_call region aws_connect_params)
              (connect_to_aws w region aws_connect_params))
         [NoAuthHandlerFound; AnsibleAWSError]
         (λ e, fail_json {[ "msg" := VStr (exc_str e) ]})
     else
       fail_json {[ "msg" := VStr "region must be specified" ]});
  all_asgs ← sdk (get_all_groups_call asg_names)
                 (boto.get_all_groups connection asg_names);
  exit_json {[ "asgs" := VList (VDict <$> results all_asgs) ]}.

End ec2_asg_facts.

(** ** ec2_group_facts *)

(** The two functions [list_ec2_security_groups] takes from
    ansible.module_utils.ec2.  That file is not among the sources at hand,
    so the module is embedded over any implementation of them. *)
Class module_utils_ec2 : Type := {
  camel_dict_to_snake_dict : pydict → pydict;
  ansible_dict_to_boto3_filter_list : pydict → list pyobj
}.

Module ec2_group_facts.

(** [module.params]: four optional strings. *)
Record params : Type := {
  name : option string;
  description : option string;
  vpc_id : option string;
  group_id : option string
}.

Record env : Type := {
  HAS_BOTO3 : bool;
  AnsibleModule : failure + params;
  get_aws_connection_info :
    failure + (option string * option string * pydict);
  boto3_conn :
    option string → option string → pydict → failure + boto3.client
}.

(** A string parameter as the Python value stored in the filter. *)
Definition str_value (o : option string) : pyobj :=
  match o with
  | Some s => VStr s
  | None => VNone
  end.

(** Lines 129 to 139: the filter dict built from the parameters. *)
Definition filter_of (module : params) : pydict :=
  let filter : pydict := ∅ in
  let filter :=
    if truthy_str (name module)
    then <["group-name" := str_value (name module)]> filter else filter in
  let filter :=
    if truthy_str (description module)
    then <["description" := str_value (description module)]> filter
    else filter in
  let filter :=
    if truthy_str (vpc_id module)
    then <["vpc-id" := str_value (vpc_id module)]> filter else filter in
  let filter :=
    if truthy_str (group_id module)
    then <["group-id" := str_value (group_id module)]> filter else filter in
  filter.

Section with_module_utils.
Context `{!module_utils_ec2}.

(** [snaked_groups = []] followed by the loop over the reply. *)
Definition snaked_groups (groups : list pydict) : list pydict :=
  foldl (λ snaked group, snaked ++ [camel_dict_to_snake_dict group]) [] groups.

Definition list_ec2_security_groups
    (connection : boto3.client) (module : params) : M unit :=
  let filter := filter_of module in
  let filters := ansible_dict_to_boto3_filter_list filter in
  groups ←
    try_except
      (sdk (describe_security_groups_call filters)
           (boto3.describe_security_groups connection filters))
      [ClientError]
      (λ e, fail_json_msg (exc_message e)
                          (camel_dict_to_snake_dict (exc_response e)));
  exit_json {[ "security_groups" :=
               VList (VDict <$> snaked_groups (boto3.SecurityGroups groups)) ]}.

Definition main (w : env) : M unit :=
  module ← helper (AnsibleModule w);
  (if negb (HAS_BOTO3 w)
   then fail_json {[ "msg" := VStr "boto3 required for this module" ]}
   else mret tt);;
  '(region, ec2_url, aws_connect_params) ←
     helper (get_aws_connection_info w);
  connection ←
    (if truthy_str region then
       helper (boto3_conn w region ec2_url aws_connect_params)
     else
       fail_json {[ "msg" := VStr "region must be specified" ]});
  list_ec2_security_groups connection module.

End with_module_utils.

End ec2_group_facts.


(** * Vocabulary for the properties *)

(** ** Reaching the query *)

Module asg_run.
Import ec2_asg_facts.

(** The run gets as far as [connection.get_all_groups]: the framework
    returned the parameters, boto was imported, a region is known and the
    connection was opened. *)
Definition connected (w : env) (module : params)
    (connection : boto.AutoScaleConnection) : Prop :=
  AnsibleModule w = inr module ∧
  HAS_BOTO w = true ∧
  ∃ region ec2_url aws_connect_params,
    get_aws_connection_info w = inr (region, ec2_url, aws_connect_params) ∧
    truthy_str region = true ∧
    connect_to_aws w region aws_connect_params = inr connection.

(** The same invocation with other parameters. *)
Definition with_params (w : env) (module : params) : env :=
  {| HAS_BOTO := HAS_BOTO w;
     AnsibleModule := inr module;
     get_aws_connection_info := get_aws_connection_info w;
     connect_to_aws := connect_to_aws w |}.

(** The keys of the dict display in the loop body, in source order. *)
Definition base_keys : list string :=
  [ "name"; "availability_zones"; "default_cooldown"; "desired_capacity";
    "health_check_period"; "health_check_type"; "launch_config_name";
    "load_balancers"; "max_size"; "min_size"; "placement_group";
    "vpc_zone_identifier"; "termination_policies" ].

(** The attribute of the group that the display stores under a base key. *)
Definition attribute (asg : boto.AutoScalingGroup) (k : string) : option pyobj :=
  if decide (k = "name") then Some (boto.name asg)
  else if decide (k = "availability_zones") then Some (boto.availability_zones asg)
  else if decide (k = "default_cooldown") then Some (boto.default_cooldown asg)
  else if decide (k = "desired_capacity") then Some (boto.desired_capacity asg)
  else if decide (k = "health_check_period") then Some (boto.health_check_period asg)
  else if decide (k = "health_check_type") then Some (boto.health_check_type asg)
  else if decide (k = "launch_config_name") then Some (boto.launch_config_name asg)
  else if decide (k = "load_balancers") then Some (boto.load_balancers asg)
  else if decide (k = "max_size") then Some (boto.max_size asg)
  else if decide (k = "min_size") then Some (boto.min_size asg)
  else if decide (k = "placement_group") then Some (boto.placement_group asg)
  else if decide (k = "vpc_zone_identifier") then Some (boto.vpc_zone_identifier asg)
  else if decide (k = "termination_policies") then Some (boto.termination_policies asg)
  else None.

End asg_run.

Module group_run.
Import ec2_group_facts.

(** The run gets as far as [list_ec2_security_groups]. *)
Definition connected (w : env) (module : params)
    (connection : boto3.client) : Prop :=
  AnsibleModule w = inr module ∧
  HAS_BOTO3 w = true ∧
  ∃ region ec2_url aws_connect_params,
    get_aws_connection_info w = inr (region, ec2_url, aws_connect_params) ∧
    truthy_str region = true ∧
    boto3_conn w region ec2_url aws_connect_params = inr connection.

Definition with_params (w : env) (module : params) : env :=
  {| HAS_BOTO3 := HAS_BOTO3 w;
     AnsibleModule := inr module;
     get_aws_connection_info := get_aws_connection_info w;
     boto3_conn := boto3_conn w |}.

(** No filter parameter given. *)
Definition no_params : params :=
  {| name := None; description := None; vpc_id := None; group_id := None |}.

End group_run.

(** A string parameter was supplied with a truthy value, which the filter
    stores as [v]. *)
Definition supplied (o : option string) (v : pyobj) : Prop :=
  ∃ s, o = Some s ∧ s ≠ "" ∧ v = VStr s.



(** ** Reading a finished run *)

Abbreviation finished := ((outcome + unit) * list event)%type.

(** The list a successful run emits under [key]. *)
Definition records_of (key : string) (r : finished) : list pyobj :=
  match r.1 with
  | inl (ExitJson kwargs) =>
      match kwargs !! key with
      | Some (VList l) => l
      | _ => []
      end
  | _ => []
  end.





(** The last query of the log, if it returned. *)
Definition returned_query (tr : list event) : option sdk_call :=
  match last (queries tr) with
  | Some (Ev c None) => Some c
  | _ => None
  end.

(** ** The paths through [main] *)

(** Every way a run of ec2_asg_facts can go, with the outcome and the log
    it leaves.  [asg_main_path] below shows that [main] takes one of them. *)
Inductive asg_path (w : ec2_asg_facts.env) : finished → Prop :=
  | asg_module_stops f :
      ec2_asg_facts.AnsibleModule w = inl f →
      asg_path w (inl (Failed f), [])
  | asg_boto_missing module :
      ec2_asg_facts.AnsibleModule w = inr module →
      ec2_asg_facts.HAS_BOTO w = false →
      asg_path w
        (inl (Failed (FailJson
                {[ "msg" := VStr "boto required for this module" ]})), [])
  | asg_info_stops module f :
      ec2_asg_facts.AnsibleModule w = inr module →
      ec2_asg_facts.HAS_BOTO w = true →
      ec2_asg_facts.get_aws_connection_info w = inl f →
      asg_path w (inl (Failed f), [])
  | asg_region_missing module region ec2_url kw :
      ec2_asg_facts.AnsibleModule w = inr module →
      ec2_asg_facts.HAS_BOTO w = true →
      ec2_asg_facts.get_aws_connection_info w = inr (region, ec2_url, kw) →
      truthy_str region = false →
      asg_path w
        (inl (Failed (FailJson
                {[ "msg" := VStr "region must be specified" ]})), [])
  | asg_connect_caught module region ec2_url kw e :
      ec2_asg_facts.AnsibleModule w = inr module →
      ec2_asg_facts.HAS_BOTO w = true →
      ec2_asg_facts.get_aws_connection_info w = inr (region, ec2_url, kw) →
      truthy_str region = true →
      ec2_asg_facts.connect_to_aws w region kw = inl e →
      exc_cls e = NoAuthHandlerFound ∨ exc_cls e = AnsibleAWSError →
      asg_path w
        (inl (Failed (FailJson {[ "msg" := VStr (exc_str e) ]})),
         [Ev (connect_to_aws_call region kw) (Some e)])
  | asg_connect_uncaught module region ec2_url kw e :
      ec2_asg_facts.AnsibleModule w = inr module →
      ec2_asg_facts.HAS_BOTO w = true →
      ec2_asg_facts.get_aws_connection_info w = inr (region, ec2_url, kw) →
      truthy_str region = true →
      ec2_asg_facts.connect_to_aws w region kw = inl e →
      exc_cls e ≠ NoAuthHandlerFound → exc_cls e ≠ AnsibleAWSError →
      asg_path w
        (inl (Failed (Uncaught e)),
         [Ev (connect_to_aws_call region kw) (Some e)])
  | asg_query_raises module connection c asg_names e :
      asg_run.connected w module connection →
      is_query c = false →
      boto.get_all_groups connection asg_names = inl e →
      asg_path w
        (inl (Failed (Uncaught e)),
         [Ev c None; Ev (get_all_groups_call asg_names) (Some e)])
  | asg_query_returns module connection c asg_names all_asgs :
      asg_run.connected w module connection →
      is_query c = false →
      boto.get_all_groups connection asg_names = inr all_asgs →
      asg_path w
        (inl (ExitJson {[ "asgs" :=
                VList (VDict <$> (ec2_asg_facts.data <$> all_asgs)) ]}),
         [Ev c None; Ev (get_all_groups_call asg_names) None]).

(** The same for ec2_group_facts. *)
Inductive group_path `{!module_utils_ec2} (w : ec2_group_facts.env) :
    finished → Prop :=
  | group_module_stops f :
      ec2_group_facts.AnsibleModule w = inl f →
      group_path w (inl (Failed f), [])
  | group_boto3_missing module :
      ec2_group_facts.AnsibleModule w = inr module →
      ec2_group_facts.HAS_BOTO3 w = false →
      group_path w
        (inl (Failed (FailJson
                {[ "msg" := VStr "boto3 required for this module" ]})), [])
  | group_info_stops module f :
      ec2_group_facts.AnsibleModule w = inr module →
      ec2_group_facts.HAS_BOTO3 w = true →
      ec2_group_facts.get_aws_connection_info w = inl f →
      group_path w (inl (Failed f), [])
  | group_region_missing module region ec2_url kw :
      ec2_group_facts.AnsibleModule w = inr module →
      ec2_group_facts.HAS_BOTO3 w = true →
      ec2_group_facts.get_aws_connection_info w = inr (region, ec2_url, kw) →
      truthy_str region = false →
      group_path w
        (inl (Failed (FailJson
                {[ "msg" := VStr "region must be specified" ]})), [])
  | group_conn_stops module region ec2_url kw f :
      ec2_group_facts.AnsibleModule w = inr module →
      ec2_group_facts.HAS_BOTO3 w = true →
      ec2_group_facts.get_aws_connection_info w = inr (region, ec2_url, kw) →
      truthy_str region = true →
      ec2_group_facts.boto3_conn w region ec2_url kw = inl f →
      group_path w (inl (Failed f), [])
  | group_client_error module connection Filters e :
      group_run.connected w module connection →
      boto3.describe_security_groups connection Filters = inl e →
      exc_cls e = ClientError →
      camel_dict_to_snake_dict (exc_response e) !! "msg" = None →
      group_path w
        (inl (Failed (FailJson
                (<["msg" := VStr (exc_message e)]>
                   (camel_dict_to_snake_dict (exc_response e))))),
         [Ev (describe_security_groups_call Filters) (Some e)])
  | group_client_error_clash module connection Filters e :
      group_run.connected w module connection →
      boto3.describe_security_groups connection Filters = inl e →
      exc_cls e = ClientError →
      is_Some (camel_dict_to_snake_dict (exc_response e) !! "msg") →
      group_path w
        (inl (Failed (Uncaught duplicate_msg)),
         [Ev (describe_security_groups_call Filters) (Some e)])
  | group_query_uncaught module connection Filters e :
      group_run.connected w module connection →
      boto3.describe_security_groups connection Filters = inl e →
      exc_cls e ≠ ClientError →
      group_path w
        (inl (Failed (Uncaught e)),
         [Ev (describe_security_groups_call Filters) (Some e)])
  | group_query_returns module connection Filters reply :
      group_run.connected w module connection →
      boto3.describe_security_groups connection Filters = inr reply →
      group_path w
        (inl (ExitJson {[ "security_groups" :=
                VList (VDict <$> (camel_dict_to_snake_dict
                                    <$> boto3.SecurityGroups reply)) ]}),
         [Ev (describe_security_groups_call Filters) None]).

(** ** Sample invocations *)

Module samples.

Definition web_asg : boto.AutoScalingGroup :=
  {| boto.name := VStr "frontend-prod";
     boto.availability_zones := VList [VStr "us-east-1a"; VStr "us-east-1b"];
     boto.default_cooldown := VInt 300;
     boto.desired_capacity := VInt 2;
     boto.health_check_period := VInt 0;
     boto.health_check_type := VStr "EC2";
     boto.launch_config_name := VStr "frontend-lc";
     boto.load_balancers := VList [];
     boto.max_size := VInt 4;
     boto.min_size := VInt 1;
     boto.placement_group := VNone;
     boto.vpc_zone_identifier := VStr "subnet-1a2b";
     boto.termination_policies := VList [VStr "Default"];
     boto.tags := Some [ {| boto.key := "env"; boto.value := VStr "prod" |} ];
     boto.instances := Some [ {| boto.instance_id := VStr "i-0a1b2c" |} ] |}.

Definition bare_asg : boto.AutoScalingGroup :=
  {| boto.name := VStr "backend-prod";
     boto.availability_zones := VNone;
     boto.default_cooldown := VInt 300;
     boto.desired_capacity := VInt 0;
     boto.health_check_period := VInt 0;
     boto.health_check_type := VStr "ELB";
     boto.launch_config_name := VStr "backend-lc";
     boto.load_balancers := VNone;
     boto.max_size := VInt 0;
     boto.min_size := VInt 0;
     boto.placement_group := VNone;
     boto.vpc_zone_identifier := VNone;
     boto.termination_policies := VNone;
     boto.tags := None;
     boto.instances := Some [] |}.

Definition autoscale : boto.AutoScaleConnection :=
  {| boto.get_all_groups := λ _, inr [web_asg; bare_asg] |}.


(** An invocation of ec2_asg_facts, given the parameter, the region the
    framework found and what [connect_to_aws] does. *)
Definition asg_env (names : option (list string)) (region : option string)
    (connect : exn + boto.AutoScaleConnection) : ec2_asg_facts.env :=
  {| ec2_asg_facts.HAS_BOTO := true;
     ec2_asg_facts.AnsibleModule := inr {| ec2_asg_facts.names := names |};
     ec2_asg_facts.get_aws_connection_info := inr (region, None, ∅);
     ec2_asg_facts.connect_to_aws := λ _ _, connect |}.

(** A stand-in for the helpers of ansible.module_utils.ec2, enough to run
    the samples: two keys are renamed, and a filter entry is a dict with
    the key under [Name] and the value, in a list, under [Values]. *)
Definition rename (k : string) : string :=
  if decide (k = "GroupName") then "group_name"
  else if decide (k = "GroupId") then "group_id"
  else k.

Definition utils : module_utils_ec2 :=
  {| camel_dict_to_snake_dict := λ d,
       dict_of ((λ kv, (rename kv.1, kv.2)) <$> map_to_list d);
     ansible_dict_to_boto3_filter_list := λ d,
       (λ kv, VDict (dict_of [("Name", VStr kv.1); ("Values", VList [kv.2])]))
         <$> map_to_list d |}.

Definition db_group : pydict :=
  dict_of [("GroupName", VStr "database_server");
           ("GroupId", VStr "sg-ded1b2a7");
           ("IpPermissions", VList [])].


(** An EC2 client whose query always gives the same answer. *)
Definition ec2 (answer : exn + list pydict) : boto3.client :=
  {| boto3.describe_security_groups := λ _,
       match answer with
       | inl e => inl e
       | inr groups => inr {| boto3.SecurityGroups := groups |}
       end |}.

Definition group_env (module : ec2_group_facts.params)
    (region : option string) (connection : boto3.client) : ec2_group_facts.env :=
  {| ec2_group_facts.HAS_BOTO3 := true;
     ec2_group_facts.AnsibleModule := inr module;
     ec2_group_facts.get_aws_connection_info := inr (region, None, ∅);
     ec2_group_facts.boto3_conn := λ _ _ _, inr connection |}.

Definition by_name (n : string) : ec2_group_facts.params :=
  {| ec2_group_facts.name := Some n;
     ec2_group_facts.description := None;
     ec2_group_facts.vpc_id := None;
     ec2_group_facts.group_id := None |}.

End samples.


(** ** Further vocabulary and samples *)

Module asg_more.
Import ec2_asg_facts.

(** The same invocation, except that [get_aws_connection_info] reports
    another [ec2_url]. *)
Definition with_ec2_url (w : env) (ec2_url : option string) : env :=
  {| HAS_BOTO := HAS_BOTO w;
     AnsibleModule := AnsibleModule w;
     get_aws_connection_info :=
       match get_aws_connection_info w with
       | inl f => inl f
       | inr (region, _, aws_connect_params) =>
           inr (region, ec2_url, aws_connect_params)
       end;
     connect_to_aws := connect_to_aws w |}.

(** What [main] hands to [get_all_groups] for a given [names]. *)
Definition query_names (module : params) : option (list string) :=
  match names module with
  | Some (n :: ns) => Some (n :: ns)
  | _ => None
  end.

End asg_more.

Module group_more.
Import ec2_group_facts.

(** How many of the four parameters were supplied with a truthy value. *)
Definition supplied_count (module : params) : nat :=
  length (filter (λ o, truthy_str o = true)
            [name module; description module; vpc_id module; group_id module]).

End group_more.

Module more_samples.

Definition throttled : exn :=
  Exn BotoServerError "BotoServerError: 400 Bad Request" "Rate exceeded" ∅.

Definition timed_out : exn :=
  Exn OtherException "Connect timeout on endpoint URL" "" ∅.

(** A connection whose query raises. *)
Definition broken_autoscale (e : exn) : boto.AutoScaleConnection :=
  {| boto.get_all_groups := λ _, inl e |}.

(** A [ClientError] whose response already has a key [msg]. *)
Definition clashing : exn :=
  Exn ClientError "An error occurred" "An error occurred"
      (dict_of [("msg", VStr "inner"); ("Error", VDict ∅)]).

(** Invocations where the import of the SDK failed. *)
Definition asg_env_no_boto (region : option string) : ec2_asg_facts.env :=
  {| ec2_asg_facts.HAS_BOTO := false;
     ec2_asg_facts.AnsibleModule := inr {| ec2_asg_facts.names := None |};
     ec2_asg_facts.get_aws_connection_info := inr (region, None, ∅);
     ec2_asg_facts.connect_to_aws := λ _ _, inr samples.autoscale |}.

Definition group_env_no_boto3 (region : option string) : ec2_group_facts.env :=
  {| ec2_group_facts.HAS_BOTO3 := false;
     ec2_group_facts.AnsibleModule := inr group_run.no_params;
     ec2_group_facts.get_aws_connection_info := inr (region, None, ∅);
     ec2_group_facts.boto3_conn := λ _ _ _, inr (samples.ec2 (inr [])) |}.

Definition two_tags : list boto.Tag :=
  [ {| boto.key := "env"; boto.value := VStr "prod" |};
    {| boto.key := "team"; boto.value := VStr "web" |} ].

Definition tagged_asg : boto.AutoScalingGroup :=
  {| boto.name := VStr "tagged";
     boto.availability_zones := VNone;
     boto.default_cooldown := VNone;
     boto.desired_capacity := VNone;
     boto.health_check_period := VNone;
     boto.health_check_type := VNone;
     boto.launch_config_name := VNone;
     boto.load_balancers := VNone;
     boto.max_size := VNone;
     boto.min_size := VNone;
     boto.placement_group := VNone;
     boto.vpc_zone_identifier := VNone;
     boto.termination_policies := VNone;
     boto.tags := Some two_tags;
     boto.instances := Some [ {| boto.instance_id := VStr "i-1" |};
                              {| boto.instance_id := VStr "i-2" |} ] |}.

End more_samples.


(** ** What a record says, and who ended a run *)

Module asg_spec.
Import ec2_asg_facts.

(** The dict [d] is the record of the group [asg]: under each base key
    the attribute of that name; a key for nothing but the base keys,
    [tags] for a non-empty tag list and [instances] for a non-empty
    instance list; under [tags] a dict that maps a key to the value of
    the last tag carrying it; under [instances] the instance ids. *)
Definition describes (asg : boto.AutoScalingGroup) (d : pydict) : Prop :=
  (∀ k, k ∈ asg_run.base_keys → d !! k = asg_run.attribute asg k) ∧
  (∀ k, is_Some (d !! k) ↔
        k ∈ asg_run.base_keys ∨
        (k = "tags" ∧ ∃ t ts, boto.tags asg = Some (t :: ts)) ∨
        (k = "instances" ∧ ∃ i rest, boto.instances asg = Some (i :: rest))) ∧
  (∀ t ts, boto.tags asg = Some (t :: ts) →
     ∃ td : pydict,
       d !! "tags" = Some (VDict td) ∧
       ∀ k, td !! k =
            boto.value <$> last (filter (λ t', boto.key t' = k) (t :: ts))) ∧
  (∀ i rest, boto.instances asg = Some (i :: rest) →
     d !! "instances" = Some (VList (boto.instance_id <$> (i :: rest)))).

(** The run was ended by a framework helper, with the failure [f]. *)
Definition helper_stops (w : env) (f : failure) : Prop :=
  AnsibleModule w = inl f ∨ get_aws_connection_info w = inl f.

End asg_spec.

Module group_spec.
Import ec2_group_facts.

Definition helper_stops (w : env) (f : failure) : Prop :=
  AnsibleModule w = inl f ∨
  get_aws_connection_info w = inl f ∨
  ∃ region ec2_url aws_connect_params,
    get_aws_connection_info w = inr (region, ec2_url, aws_connect_params) ∧
    boto3_conn w region ec2_url aws_connect_params = inl f.

End group_spec.

(** The run ended in [exit_json] or in [fail_json]. *)
Definition two_outcomes (r : finished) : Prop :=
  (∃ kwargs, r.1 = inl (ExitJson kwargs)) ∨
  (∃ kwargs, r.1 = inl (Failed (FailJson kwargs))).


(** * Properties *)

(** ** Loops as maps *)

Lemma foldl_snoc_fmap {A B : Type} (f : A → B) (l : list A) (acc : list B) :
  foldl (λ acc x, acc ++ [f x]) acc l = acc ++ (f <$> l).
Proof.
  revert acc. induction l as [|x l IH]; intros acc; simpl.
  - by rewrite app_nil_r.
  - rewrite IH. by rewrite <- app_assoc.
Qed.

Lemma results_fmap (all_asgs : list boto.AutoScalingGroup) :
  ec2_asg_facts.results all_asgs = ec2_asg_facts.data <$> all_asgs.
Proof. unfold ec2_asg_facts.results. by rewrite foldl_snoc_fmap. Qed.

Lemma snaked_groups_fmap `{!module_utils_ec2} (groups : list pydict) :
  ec2_group_facts.snaked_groups groups = camel_dict_to_snake_dict <$> groups.
Proof. unfold ec2_group_facts.snaked_groups. by rewrite foldl_snoc_fmap. Qed.

(** ** Dicts built from pairs *)

Lemma foldl_insert_lookup {A : Type} (fk : A → string) (fv : A → pyobj)
    (l : list A) (acc : pydict) (k : string) :
  foldl (λ d x, <[fk x := fv x]> d) acc l !! k =
  match last (filter (λ x, fk x = k) l) with
  | Some x => Some (fv x)
  | None => acc !! k
  end.
Proof.
  revert acc. induction l as [|x l IH]; intros acc; simpl.
  - done.
  - rewrite IH, filter_cons.
    destruct (decide (fk x = k)) as [Hk|Hk].
    + destruct (filter _ l) as [|y rest] eqn:Hf; simpl.
      * by rewrite <- Hk, lookup_insert_eq.
      * destruct (last (y :: rest)) eqn:Hl; [done|].
        by apply last_None in Hl.
    + destruct (last (filter _ l)); [done|].
      by rewrite lookup_insert_ne.
Qed.

(** [dict(pairs)[k]] is the value of the last pair whose key is [k]. *)
Lemma dict_of_lookup (pairs : list (string * pyobj)) (k : string) :
  dict_of pairs !! k = snd <$> last (filter (λ kv, kv.1 = k) pairs).
Proof.
  unfold dict_of. rewrite (foldl_insert_lookup fst snd).
  destruct (last _); [done|]. by rewrite lookup_empty.
Qed.

(** The dict made of a group's tags maps a key to the value of the last
    tag that has this key. *)
Lemma dict_of_tags_lookup (ts : list boto.Tag) (k : string) :
  dict_of ((λ t, (boto.key t, boto.value t)) <$> ts) !! k =
  boto.value <$> last (filter (λ t, boto.key t = k) ts).
Proof.
  unfold dict_of. rewrite foldl_fmap. simpl.
  rewrite (foldl_insert_lookup boto.key boto.value).
  destruct (last _); [done|]. by rewrite lookup_empty.
Qed.

(** ** Stepping through [main] *)

Lemma group_main_connected `{!module_utils_ec2} w module connection tr :
  group_run.connected w module connection →
  ec2_group_facts.main w tr =
  ec2_group_facts.list_ec2_security_groups connection module tr.
Proof.
  intros (Hm & Hb & region & url & kw & Hi & Hr & Hc).
  unfold ec2_group_facts.main, mbind, M_bind, helper.
  rewrite Hm, Hb, Hi. simpl. rewrite Hr, Hc. reflexivity.
Qed.

Lemma list_groups_reply `{!module_utils_ec2} connection module reply tr :
  boto3.describe_security_groups connection
    (ansible_dict_to_boto3_filter_list (ec2_group_facts.filter_of module))
    = inr reply →
  ec2_group_facts.list_ec2_security_groups connection module tr =
  (inl (ExitJson {[ "security_groups" :=
          VList (VDict <$> (camel_dict_to_snake_dict
                              <$> boto3.SecurityGroups reply)) ]}),
   tr ++ [Ev (describe_security_groups_call
                (ansible_dict_to_boto3_filter_list
                   (ec2_group_facts.filter_of module))) None]).
Proof.
  intros Hq.
  unfold ec2_group_facts.list_ec2_security_groups, mbind, M_bind,
    try_except, sdk.
  rewrite Hq. simpl. unfold exit_json. by rewrite snaked_groups_fmap.
Qed.

Lemma list_groups_raises `{!module_utils_ec2} connection module e tr :
  boto3.describe_security_groups connection
    (ansible_dict_to_boto3_filter_list (ec2_group_facts.filter_of module))
    = inl e →
  ec2_group_facts.list_ec2_security_groups connection module tr =
  (inl (Failed
     (if decide (exc_cls e = ClientError) then
        match camel_dict_to_snake_dict (exc_response e) !! "msg" with
        | Some _ => Uncaught duplicate_msg
        | None => FailJson (<["msg" := VStr (exc_message e)]>
                              (camel_dict_to_snake_dict (exc_response e)))
        end
      else Uncaught e)),
   tr ++ [Ev (describe_security_groups_call
                (ansible_dict_to_boto3_filter_list
                   (ec2_group_facts.filter_of module))) (Some e)]).
Proof.
  intros Hq.
  unfold ec2_group_facts.list_ec2_security_groups, mbind, M_bind,
    try_except, sdk.
  rewrite Hq. simpl.
  destruct (decide (exc_cls e = ClientError)) as [Hc|Hc].
  - rewrite bool_decide_eq_true_2 by (by apply list_elem_of_singleton).
    unfold fail_json_msg.
    by destruct (camel_dict_to_snake_dict (exc_response e) !! "msg").
  - rewrite bool_decide_eq_false_2; [done|].
    by intros Hin%list_elem_of_singleton.
Qed.

Lemma asg_main_connected w module connection tr :
  asg_run.connected w module connection →
  ∃ c, is_query c = false ∧
  ec2_asg_facts.main w tr =
  (let asg_names :=
     if truthy_list (ec2_asg_facts.names module)
     then ec2_asg_facts.names module else None in
   match boto.get_all_groups connection asg_names with
   | inl e =>
       (inl (Failed (Uncaught e)),
        (tr ++ [Ev c None]) ++ [Ev (get_all_groups_call asg_names) (Some e)])
   | inr all_asgs =>
       (inl (ExitJson {[ "asgs" :=
               VList (VDict <$> (ec2_asg_facts.data <$> all_asgs)) ]}),
        (tr ++ [Ev c None]) ++ [Ev (get_all_groups_call asg_names) None])
   end).
Proof.
  intros (Hm & Hb & region & url & kw & Hi & Hr & Hc).
  exists (connect_to_aws_call region kw). split; [done|].
  unfold ec2_asg_facts.main, mbind, M_bind, helper, try_except, sdk.
  rewrite Hm, Hb, Hi. simpl. rewrite Hr, Hc. simpl.
  destruct (truthy_list (ec2_asg_facts.names module)); simpl;
    (destruct (boto.get_all_groups connection _); simpl;
     [done | unfold exit_json; by rewrite results_fmap]).
Qed.

(** ** Truthiness *)

Lemma truthy_str_true (o : option string) :
  truthy_str o = true ↔ ∃ s, o = Some s ∧ s ≠ "".
Proof.
  destruct o as [s|]; simpl.
  - rewrite negb_true_iff, String.eqb_neq. naive_solver.
  - naive_solver.
Qed.

Lemma truthy_str_value (o : option string) (v : pyobj) :
  truthy_str o = true ∧ v = ec2_group_facts.str_value o ↔ supplied o v.
Proof.
  unfold supplied. rewrite truthy_str_true. split.
  - intros [(s & -> & Hs) ->]. by exists s.
  - intros (s & -> & Hs & ->). split; [by exists s | done].
Qed.

(** Proving that a sample invocation gets as far as its query. *)
Ltac sample_connected :=
  split; [reflexivity | split; [reflexivity |]];
  eexists _, _, _; split; [reflexivity | split; reflexivity].

(** ** ec2_group_facts: the records emitted *)

(** C1.  When [describe_security_groups] succeeds, the module exits with
    [security_groups] bound to a list that has one record per security
    group of the reply, in the reply's order, the record at each position
    being [camel_dict_to_snake_dict] of the group at that position. *)
Theorem group_facts_snake_map `{!module_utils_ec2}
    (w : ec2_group_facts.env) (module : ec2_group_facts.params)
    (connection : boto3.client) (reply : boto3.SecurityGroupsReply) :
  group_run.connected w module connection →
  boto3.describe_security_groups connection
    (ansible_dict_to_boto3_filter_list (ec2_group_facts.filter_of module))
    = inr reply →
  ∃ records : list pydict,
    (run (ec2_group_facts.main w)).1 =
      inl (ExitJson {[ "security_groups" := VList (VDict <$> records) ]}) ∧
    length records = length (boto3.SecurityGroups reply) ∧
    ∀ i : nat, records !! i =
               camel_dict_to_snake_dict <$> (boto3.SecurityGroups reply !! i).
Proof.
  intros Hconn Hreply.
  exists (camel_dict_to_snake_dict <$> boto3.SecurityGroups reply).
  split; [|split].
  - unfold run. rewrite (group_main_connected _ _ _ _ Hconn).
    by rewrite (list_groups_reply _ _ _ _ Hreply).
  - by rewrite length_fmap.
  - intros i. by rewrite list_lookup_fmap.
Qed.

Lemma group_facts_snake_map_sample :
  let w := samples.group_env (samples.by_name "database_server")
             (Some "us-east-1") (samples.ec2 (inr [samples.db_group])) in
  group_run.connected w (samples.by_name "database_server")
    (samples.ec2 (inr [samples.db_group])) ∧
  ∃ records : list pydict,
    (run (ec2_group_facts.main (H := samples.utils) w)).1 =
      inl (ExitJson {[ "security_groups" := VList (VDict <$> records) ]}) ∧
    length records = 1 ∧
    ∀ i : nat, records !! i =
      camel_dict_to_snake_dict (module_utils_ec2 := samples.utils)
        <$> ([samples.db_group] !! i).
Proof.
  intros w.
  assert (Hc : group_run.connected w (samples.by_name "database_server")
                 (samples.ec2 (inr [samples.db_group])))
    by sample_connected.
  split; [exact Hc|].
  exact (group_facts_snake_map (H := samples.utils) w _ _
           {| boto3.SecurityGroups := [samples.db_group] |} Hc eq_refl).
Defined.

(** C9.  When the query succeeds and matches no security group, the module
    exits with [security_groups] bound to the empty list. *)
Theorem group_facts_no_match `{!module_utils_ec2}
    (w : ec2_group_facts.env) (module : ec2_group_facts.params)
    (connection : boto3.client) (reply : boto3.SecurityGroupsReply) :
  group_run.connected w module connection →
  boto3.describe_security_groups connection
    (ansible_dict_to_boto3_filter_list (ec2_group_facts.filter_of module))
    = inr reply →
  boto3.SecurityGroups reply = [] →
  run (ec2_group_facts.main w) =
  (inl (ExitJson {[ "security_groups" := VList [] ]}),
   [Ev (describe_security_groups_call
          (ansible_dict_to_boto3_filter_list
             (ec2_group_facts.filter_of module))) None]).
Proof.
  intros Hconn Hreply Hnone.
  unfold run. rewrite (group_main_connected _ _ _ _ Hconn).
  rewrite (list_groups_reply _ _ _ _ Hreply). by rewrite Hnone.
Qed.

Lemma group_facts_no_match_sample :
  let w := samples.group_env (samples.by_name "no-such-group")
             (Some "us-east-1") (samples.ec2 (inr [])) in
  group_run.connected w (samples.by_name "no-such-group")
    (samples.ec2 (inr [])) ∧
  run (ec2_group_facts.main (H := samples.utils) w) =
  (inl (ExitJson {[ "security_groups" := VList [] ]}),
   [Ev (describe_security_groups_call
          (ansible_dict_to_boto3_filter_list (module_utils_ec2 := samples.utils)
             (ec2_group_facts.filter_of (samples.by_name "no-such-group"))))
       None]).
Proof.
  intros w.
  assert (Hc : group_run.connected w (samples.by_name "no-such-group")
                 (samples.ec2 (inr [])))
    by sample_connected.
  split; [exact Hc|].
  exact (group_facts_no_match (H := samples.utils) w _ _
           {| boto3.SecurityGroups := [] |} Hc eq_refl eq_refl).
Defined.

(** ** The query each module issues *)

Lemma list_groups_log `{!module_utils_ec2} connection module tr :
  ∃ raised,
    (ec2_group_facts.list_ec2_security_groups connection module tr).2 =
    tr ++ [Ev (describe_security_groups_call
                 (ansible_dict_to_boto3_filter_list
                    (ec2_group_facts.filter_of module))) raised].
Proof.
  destruct (boto3.describe_security_groups connection
              (ansible_dict_to_boto3_filter_list
                 (ec2_group_facts.filter_of module))) as [e|reply] eqn:Hq.
  - exists (Some e). by rewrite (list_groups_raises _ _ _ _ Hq).
  - exists None. by rewrite (list_groups_reply _ _ _ _ Hq).
Qed.

(** C4.  The filter dict has an entry under [group-name], [description],
    [vpc-id], [group-id] exactly for those of [name], [description],
    [vpc_id], [group_id] that were supplied with a truthy value, holding
    that value, and no other entry; without parameters it is empty; and
    the query is issued with the filter list made from that dict. *)
Theorem group_filter_entries `{!module_utils_ec2}
    (module : ec2_group_facts.params) :
  (∀ k v, ec2_group_facts.filter_of module !! k = Some v ↔
     (k = "group-name" ∧ supplied (ec2_group_facts.name module) v) ∨
     (k = "description" ∧ supplied (ec2_group_facts.description module) v) ∨
     (k = "vpc-id" ∧ supplied (ec2_group_facts.vpc_id module) v) ∨
     (k = "group-id" ∧ supplied (ec2_group_facts.group_id module) v)) ∧
  ec2_group_facts.filter_of group_run.no_params = ∅ ∧
  (∀ connection, ∃ raised,
     (run (ec2_group_facts.list_ec2_security_groups connection module)).2 =
     [Ev (describe_security_groups_call
            (ansible_dict_to_boto3_filter_list
               (ec2_group_facts.filter_of module))) raised]).
Proof.
  split; [|split].
  - intros k v.
    rewrite <- !truthy_str_value.
    unfold ec2_group_facts.filter_of.
    destruct (truthy_str (ec2_group_facts.name module)),
             (truthy_str (ec2_group_facts.description module)),
             (truthy_str (ec2_group_facts.vpc_id module)),
             (truthy_str (ec2_group_facts.group_id module));
      rewrite ?lookup_insert, ?lookup_empty;
      repeat case_decide; subst; naive_solver.
  - reflexivity.
  - intros connection. unfold run.
    destruct (list_groups_log connection module []) as [raised Hlog].
    by exists raised.
Qed.

(** ** Every run follows one of the paths *)

Lemma asg_main_path (w : ec2_asg_facts.env) :
  asg_path w (run (ec2_asg_facts.main w)).
Proof.
  destruct (ec2_asg_facts.AnsibleModule w) as [f|module] eqn:Hm.
  { unfold run, ec2_asg_facts.main, mbind, M_bind, helper. rewrite Hm.
    by apply asg_module_stops. }
  destruct (ec2_asg_facts.HAS_BOTO w) eqn:Hb.
  2: { unfold run, ec2_asg_facts.main, mbind, M_bind, helper.
       rewrite Hm, Hb. simpl. by eapply asg_boto_missing. }
  destruct (ec2_asg_facts.get_aws_connection_info w)
    as [f|[[region url] kw]] eqn:Hi.
  { unfold run, ec2_asg_facts.main, mbind, M_bind, helper.
    rewrite Hm, Hb, Hi. simpl. by eapply asg_info_stops. }
  destruct (truthy_str region) eqn:Hr.
  2: { unfold run, ec2_asg_facts.main, mbind, M_bind, helper.
       rewrite Hm, Hb, Hi. simpl. rewrite Hr. simpl.
       by eapply asg_region_missing. }
  destruct (ec2_asg_facts.connect_to_aws w region kw) as [e|connection] eqn:Hc.
  - unfold run, ec2_asg_facts.main, mbind, M_bind, helper, try_except, sdk.
    rewrite Hm, Hb, Hi. simpl. rewrite Hr, Hc. simpl.
    case_bool_decide as Hin.
    + eapply asg_connect_caught; eauto.
      apply elem_of_cons in Hin as [?|Hin]; [by left|].
      apply list_elem_of_singleton in Hin. by right.
    + eapply asg_connect_uncaught; eauto.
      * intros He. apply Hin. rewrite He. by left.
      * intros He. apply Hin. rewrite He. right. by left.
  - assert (Hconn : asg_run.connected w module connection).
    { split; [done|]. split; [done|]. by exists region, url, kw. }
    destruct (asg_main_connected w module connection [] Hconn)
      as (c & Hq & Hrun).
    unfold run. rewrite Hrun. simpl.
    destruct (boto.get_all_groups connection _) as [e|all_asgs] eqn:Hg.
    + by eapply asg_query_raises.
    + by eapply asg_query_returns.
Qed.

Lemma group_main_path `{!module_utils_ec2} (w : ec2_group_facts.env) :
  group_path w (run (ec2_group_facts.main w)).
Proof.
  destruct (ec2_group_facts.AnsibleModule w) as [f|module] eqn:Hm.
  { unfold run, ec2_group_facts.main, mbind, M_bind, helper. rewrite Hm.
    by apply group_module_stops. }
  destruct (ec2_group_facts.HAS_BOTO3 w) eqn:Hb.
  2: { unfold run, ec2_group_facts.main, mbind, M_bind, helper.
       rewrite Hm, Hb. simpl. by eapply group_boto3_missing. }
  destruct (ec2_group_facts.get_aws_connection_info w)
    as [f|[[region url] kw]] eqn:Hi.
  { unfold run, ec2_group_facts.main, mbind, M_bind, helper.
    rewrite Hm, Hb, Hi. simpl. by eapply group_info_stops. }
  destruct (truthy_str region) eqn:Hr.
  2: { unfold run, ec2_group_facts.main, mbind, M_bind, helper.
       rewrite Hm, Hb, Hi. simpl. rewrite Hr. simpl.
       by eapply group_region_missing. }
  destruct (ec2_group_facts.boto3_conn w region url kw)
    as [f|connection] eqn:Hc.
  { unfold run, ec2_group_facts.main, mbind, M_bind, helper.
    rewrite Hm, Hb, Hi. simpl. rewrite Hr, Hc. simpl.
    by eapply group_conn_stops. }
  assert (Hconn : group_run.connected w module connection).
  { split; [done|]. split; [done|]. by exists region, url, kw. }
  unfold run. rewrite (group_main_connected _ _ _ _ Hconn).
  destruct (boto3.describe_security_groups connection
              (ansible_dict_to_boto3_filter_list
                 (ec2_group_facts.filter_of module))) as [e|reply] eqn:Hq.
  - rewrite (list_groups_raises _ _ _ _ Hq). simpl.
    destruct (decide (exc_cls e = ClientError)) as [He|He].
    + destruct (camel_dict_to_snake_dict (exc_response e) !! "msg") eqn:Hk.
      * eapply group_client_error_clash; eauto.
      * eapply group_client_error; eauto.
    + by eapply group_query_uncaught.
  - rewrite (list_groups_reply _ _ _ _ Hq). simpl.
    by eapply group_query_returns.
Qed.

(** ** One query, no retry *)

Lemma queries_connect_then (c : sdk_call) (ev : event) :
  is_query c = false → is_query (ev_call ev) = true →
  queries [Ev c None; ev] = [ev].
Proof.
  intros Hc Hev. unfold queries.
  rewrite filter_cons_False by (simpl; by rewrite Hc).
  by rewrite filter_cons_True, filter_nil by done.
Qed.

Lemma queries_only (ev : event) :
  is_query (ev_call ev) = true → queries [ev] = [ev].
Proof.
  intros Hev. unfold queries. by rewrite filter_cons_True, filter_nil by done.
Qed.

Lemma queries_connect_only (c : sdk_call) (raised : option exn) :
  is_query c = false → queries [Ev c raised] = [].
Proof.
  intros Hc. unfold queries.
  by rewrite filter_cons_False, filter_nil by (simpl; by rewrite Hc).
Qed.

(** C6.  A run of either module logs no query at all, or exactly one, and
    then that query is the last call of the run: nothing is issued after
    it, whether it returned or raised. *)
Theorem single_query `{!module_utils_ec2} :
  (∀ w : ec2_asg_facts.env,
     let tr := (run (ec2_asg_facts.main w)).2 in
     queries tr = [] ∨
     ∃ names raised,
       queries tr = [Ev (get_all_groups_call names) raised] ∧
       last tr = Some (Ev (get_all_groups_call names) raised)) ∧
  (∀ w : ec2_group_facts.env,
     let tr := (run (ec2_group_facts.main w)).2 in
     queries tr = [] ∨
     ∃ Filters raised,
       queries tr = [Ev (describe_security_groups_call Filters) raised] ∧
       last tr = Some (Ev (describe_security_groups_call Filters) raised)).
Proof.
  split; intros w tr; subst tr.
  - destruct (asg_main_path w); simpl;
      try (left; reflexivity);
      try (left; by apply queries_connect_only).
    + right. eexists _, _. split; [by apply queries_connect_then | done].
    + right. eexists _, _. split; [by apply queries_connect_then | done].
  - destruct (group_main_path w); simpl; try (left; reflexivity);
      right; eexists _, _; (split; [by apply queries_only | done]).
Qed.

(** ** Falsy parameters *)




(** ** ec2_asg_facts: the record of a group *)

Lemma data_keys (asg : boto.AutoScalingGroup) (k : string) :
  is_Some (ec2_asg_facts.data asg !! k) ↔
  k ∈ asg_run.base_keys ∨
  (k = "tags" ∧ ∃ t ts, boto.tags asg = Some (t :: ts)) ∨
  (k = "instances" ∧ ∃ i rest, boto.instances asg = Some (i :: rest)).
Proof.
  rewrite <- elem_of_dom. unfold ec2_asg_facts.data, dict_of, asg_run.base_keys.
  destruct (boto.tags asg) as [[|t ts]|], (boto.instances asg) as [[|i rest]|];
    simpl; rewrite ?dom_insert_L, dom_empty_L; set_solver.
Qed.

Lemma data_base (asg : boto.AutoScalingGroup) (k : string) :
  k ∈ asg_run.base_keys →
  ec2_asg_facts.data asg !! k = asg_run.attribute asg k.
Proof.
  intros Hk. unfold asg_run.base_keys in Hk.
  unfold ec2_asg_facts.data, dict_of.
  destruct (boto.tags asg) as [[|t ts]|], (boto.instances asg) as [[|i rest]|];
    simpl;
    repeat (apply elem_of_cons in Hk as [->|Hk]; [reflexivity|]);
    by apply elem_of_nil in Hk.
Qed.

Lemma data_tags (asg : boto.AutoScalingGroup) t ts :
  boto.tags asg = Some (t :: ts) →
  ec2_asg_facts.data asg !! "tags" =
  Some (VDict (dict_of ((λ t, (boto.key t, boto.value t)) <$> (t :: ts)))).
Proof.
  intros Ht. unfold ec2_asg_facts.data. rewrite Ht. simpl truthy_list. cbv iota.
  destruct (truthy_list (boto.instances asg)).
  - rewrite lookup_insert_ne by done. by rewrite lookup_insert_eq.
  - by rewrite lookup_insert_eq.
Qed.

Lemma data_instances (asg : boto.AutoScalingGroup) i rest :
  boto.instances asg = Some (i :: rest) →
  ec2_asg_facts.data asg !! "instances" =
  Some (VList (boto.instance_id <$> (i :: rest))).
Proof.
  intros Hi. unfold ec2_asg_facts.data. rewrite Hi. simpl truthy_list. cbv iota.
  by rewrite lookup_insert_eq.
Qed.

Lemma asg_records_emitted (w : ec2_asg_facts.env) module connection all_asgs :
  asg_run.connected w module connection →
  boto.get_all_groups connection
    (if truthy_list (ec2_asg_facts.names module)
     then ec2_asg_facts.names module else None) = inr all_asgs →
  records_of "asgs" (run (ec2_asg_facts.main w)) =
  VDict <$> (ec2_asg_facts.data <$> all_asgs).
Proof.
  intros Hconn Hq.
  destruct (asg_main_connected w module connection [] Hconn) as (c & _ & Hrun).
  unfold run. rewrite Hrun. simpl. rewrite Hq.
  unfold records_of. simpl. by rewrite lookup_singleton_eq.
Qed.

(** C10.  The record emitted for a group the query returned has a key
    exactly for each of the thirteen base keys, for [tags] when the group
    has a [tags] attribute holding a non-empty list, and for [instances]
    when its instance list is non-empty.  Under [tags] is a dict from tag
    keys to tag values (for a key carried by several tags, the value of
    the last of them); under [instances] is the list of the instance ids,
    in order. *)
Theorem asg_record_shape :
  length asg_run.base_keys = 13 ∧
  NoDup asg_run.base_keys ∧
  (∀ (w : ec2_asg_facts.env) module connection all_asgs,
     asg_run.connected w module connection →
     boto.get_all_groups connection
       (if truthy_list (ec2_asg_facts.names module)
        then ec2_asg_facts.names module else None) = inr all_asgs →
     records_of "asgs" (run (ec2_asg_facts.main w)) =
     VDict <$> (ec2_asg_facts.data <$> all_asgs)) ∧
  (∀ (asg : boto.AutoScalingGroup) (k : string),
     is_Some (ec2_asg_facts.data asg !! k) ↔
     k ∈ asg_run.base_keys ∨
     (k = "tags" ∧ ∃ t ts, boto.tags asg = Some (t :: ts)) ∨
     (k = "instances" ∧ ∃ i rest, boto.instances asg = Some (i :: rest))) ∧
  (∀ (asg : boto.AutoScalingGroup) t ts,
     boto.tags asg = Some (t :: ts) →
     ∃ d : pydict,
       ec2_asg_facts.data asg !! "tags" = Some (VDict d) ∧
       ∀ k, d !! k =
            boto.value <$> last (filter (λ t', boto.key t' = k) (t :: ts))) ∧
  (∀ (asg : boto.AutoScalingGroup) i rest,
     boto.instances asg = Some (i :: rest) →
     ec2_asg_facts.data asg !! "instances" =
     Some (VList (boto.instance_id <$> (i :: rest)))).
Proof.
  split; [reflexivity|]. split; [compute_done|].
  split; [exact asg_records_emitted|].
  split; [exact data_keys|]. split.
  - intros asg t ts Ht. eexists. split; [by apply data_tags|].
    intros k. apply dict_of_tags_lookup.
  - exact data_instances.
Qed.

Lemma asg_record_shape_sample :
  records_of "asgs"
    (run (ec2_asg_facts.main
            (samples.asg_env (Some ["frontend-prod"]) (Some "us-east-1")
                             (inr samples.autoscale)))) =
    VDict <$> (ec2_asg_facts.data <$> [samples.web_asg; samples.bare_asg]) ∧
  (∃ d : pydict,
     ec2_asg_facts.data samples.web_asg !! "tags" = Some (VDict d) ∧
     ∀ k, d !! k =
          boto.value <$> last (filter (λ t', boto.key t' = k)
                                 [ {| boto.key := "env";
                                      boto.value := VStr "prod" |} ])) ∧
  ec2_asg_facts.data samples.web_asg !! "instances" =
    Some (VList [VStr "i-0a1b2c"]).
Proof.
  destruct asg_record_shape as (_ & _ & Hrun & _ & Htags & Hinst).
  split; [|split].
  - apply (Hrun _ {| ec2_asg_facts.names := Some ["frontend-prod"] |}
             samples.autoscale);
      [sample_connected | reflexivity].
  - apply (Htags samples.web_asg). reflexivity.
  - apply (Hinst samples.web_asg {| boto.instance_id := VStr "i-0a1b2c" |} []).
    reflexivity.
Defined.

(** ** Records are not flat in general *)






(** ** Every run, case by case *)

Lemma data_describes (asg : boto.AutoScalingGroup) :
  asg_spec.describes asg (ec2_asg_facts.data asg).
Proof.
  split; [|split; [|split]].
  - intros k Hk. by apply data_base.
  - apply data_keys.
  - intros t ts Ht. eexists. split; [by apply data_tags|].
    intros k. apply dict_of_tags_lookup.
  - apply data_instances.
Qed.

Lemma results_describe (all_asgs : list boto.AutoScalingGroup) :
  Forall2 asg_spec.describes all_asgs (ec2_asg_facts.data <$> all_asgs).
Proof.
  induction all_asgs as [|asg all_asgs IH]; simpl; constructor; [|done].
  apply data_describes.
Qed.

Lemma query_names_norm (module : ec2_asg_facts.params) :
  (if truthy_list (ec2_asg_facts.names module)
   then ec2_asg_facts.names module else None)
  = asg_more.query_names module.
Proof.
  unfold asg_more.query_names.
  by destruct (ec2_asg_facts.names module) as [[|n ns]|].
Qed.

Lemma asg_run_cases (w : ec2_asg_facts.env) :
  (∃ f, asg_spec.helper_stops w f ∧
        run (ec2_asg_facts.main w) = (inl (Failed f), [])) ∨
  (∃ msg, (msg = "boto required for this module" ∨
           msg = "region must be specified") ∧
          run (ec2_asg_facts.main w) =
          (inl (Failed (FailJson {[ "msg" := VStr msg ]})), [])) ∨
  (∃ region ec2_url kw e,
     ec2_asg_facts.get_aws_connection_info w = inr (region, ec2_url, kw) ∧
     ec2_asg_facts.connect_to_aws w region kw = inl e ∧
     ((exc_cls e = NoAuthHandlerFound ∨ exc_cls e = AnsibleAWSError) ∧
      run (ec2_asg_facts.main w) =
      (inl (Failed (FailJson {[ "msg" := VStr (exc_str e) ]})),
       [Ev (connect_to_aws_call region kw) (Some e)])
      ∨
      (exc_cls e ≠ NoAuthHandlerFound ∧ exc_cls e ≠ AnsibleAWSError) ∧
      run (ec2_asg_facts.main w) =
      (inl (Failed (Uncaught e)),
       [Ev (connect_to_aws_call region kw) (Some e)]))) ∨
  (∃ module connection c,
     asg_run.connected w module connection ∧ is_query c = false ∧
     ((∃ e, boto.get_all_groups connection (asg_more.query_names module)
            = inl e ∧
            run (ec2_asg_facts.main w) =
            (inl (Failed (Uncaught e)),
             [Ev c None;
              Ev (get_all_groups_call (asg_more.query_names module))
                 (Some e)]))
      ∨
      (∃ all_asgs, boto.get_all_groups connection
                     (asg_more.query_names module) = inr all_asgs ∧
            run (ec2_asg_facts.main w) =
            (inl (ExitJson {[ "asgs" :=
                    VList (VDict <$> (ec2_asg_facts.data <$> all_asgs)) ]}),
             [Ev c None;
              Ev (get_all_groups_call (asg_more.query_names module))
                 None])))).
Proof.
  assert (Hp : ∃ r, r = run (ec2_asg_facts.main w) ∧ asg_path w r)
    by eauto using asg_main_path.
  destruct Hp as (r & Hr & Hp).
  destruct Hp as
    [ f Hm | module Hm Hb | module f Hm Hb Hi
    | module region url kw Hm Hb Hi Hreg
    | module region url kw e Hm Hb Hi Hreg Hc Hcls
    | module region url kw e Hm Hb Hi Hreg Hc Hn Ha
    | module connection c names e Hconn Hq Hg
    | module connection c names all_asgs Hconn Hq Hg ].
  - rewrite <- Hr. left. exists f. split; [by left | done].
  - rewrite <- Hr. right; left. eexists. split; [by left | done].
  - rewrite <- Hr. left. exists f. split; [by right | done].
  - rewrite <- Hr. right; left. eexists. split; [by right | done].
  - rewrite <- Hr. right; right; left. exists region, url, kw, e. eauto 10.
  - rewrite <- Hr. right; right; left. exists region, url, kw, e. eauto 10.
  - right; right; right. clear Hr.
    destruct (asg_main_connected w module connection [] Hconn)
      as (c' & Hc' & Hrun').
    rewrite query_names_norm in Hrun'.
    exists module, connection, c'. split; [done|]. split; [done|].
    unfold run. rewrite Hrun'. simpl.
    destruct (boto.get_all_groups connection (asg_more.query_names module));
      eauto.
  - right; right; right. clear Hr.
    destruct (asg_main_connected w module connection [] Hconn)
      as (c' & Hc' & Hrun').
    rewrite query_names_norm in Hrun'.
    exists module, connection, c'. split; [done|]. split; [done|].
    unfold run. rewrite Hrun'. simpl.
    destruct (boto.get_all_groups connection (asg_more.query_names module));
      eauto.
Qed.

Lemma group_run_cases `{!module_utils_ec2} (w : ec2_group_facts.env) :
  (∃ f, group_spec.helper_stops w f ∧
        run (ec2_group_facts.main w) = (inl (Failed f), [])) ∨
  (∃ msg, (msg = "boto3 required for this module" ∨
           msg = "region must be specified") ∧
          run (ec2_group_facts.main w) =
          (inl (Failed (FailJson {[ "msg" := VStr msg ]})), [])) ∨
  (∃ module connection,
     group_run.connected w module connection ∧
     ((∃ e, boto3.describe_security_groups connection
              (ansible_dict_to_boto3_filter_list
                 (ec2_group_facts.filter_of module)) = inl e ∧
            run (ec2_group_facts.main w) =
            (inl (Failed
               (if decide (exc_cls e = ClientError) then
                  match camel_dict_to_snake_dict (exc_response e) !! "msg" with
                  | Some _ => Uncaught duplicate_msg
                  | None =>
                      FailJson (<["msg" := VStr (exc_message e)]>
                                  (camel_dict_to_snake_dict (exc_response e)))
                  end
                else Uncaught e)),
             [Ev (describe_security_groups_call
                    (ansible_dict_to_boto3_filter_list
                       (ec2_group_facts.filter_of module))) (Some e)]))
      ∨
      (∃ reply, boto3.describe_security_groups connection
                  (ansible_dict_to_boto3_filter_list
                     (ec2_group_facts.filter_of module)) = inr reply ∧
            run (ec2_group_facts.main w) =
            (inl (ExitJson {[ "security_groups" :=
                    VList (VDict <$> (camel_dict_to_snake_dict
                                        <$> boto3.SecurityGroups reply)) ]}),
             [Ev (describe_security_groups_call
                    (ansible_dict_to_boto3_filter_list
                       (ec2_group_facts.filter_of module))) None])))).
Proof.
  assert (Hp : ∃ r, r = run (ec2_group_facts.main w) ∧ group_path w r)
    by eauto using group_main_path.
  destruct Hp as (r & Hr & Hp).
  destruct Hp as
    [ f Hm | module Hm Hb | module f Hm Hb Hi
    | module region url kw Hm Hb Hi Hreg
    | module region url kw f Hm Hb Hi Hreg Hc
    | module connection Filters e Hconn Hq Hcls Hmsg
    | module connection Filters e Hconn Hq Hcls Hmsg
    | module connection Filters e Hconn Hq Hcls
    | module connection Filters reply Hconn Hq ];
    try (right; right; exists module, connection; split; [done|]; unfold run;
         rewrite (group_main_connected _ _ _ _ Hconn);
         destruct (boto3.describe_security_groups connection
                     (ansible_dict_to_boto3_filter_list
                        (ec2_group_facts.filter_of module)))
           as [e'|reply'] eqn:Hq';
         [ left; exists e'; split; [done|];
           by rewrite (list_groups_raises _ _ _ _ Hq')
         | right; exists reply'; split; [done|];
           by rewrite (list_groups_reply _ _ _ _ Hq') ]).
  - rewrite <- Hr. left. exists f. split; [by left | done].
  - rewrite <- Hr. right; left. eexists. split; [by left | done].
  - rewrite <- Hr. left. exists f. split; [right; by left | done].
  - rewrite <- Hr. right; left. eexists. split; [by right | done].
  - rewrite <- Hr. left. exists f. split; [|done].
    right; right. by exists region, url, kw.
Qed.

(** ** Three ways a run can end *)

(** C3, as the code has it.  A run of either module ends in exactly one
    of three ways.  It calls [exit_json] with nothing but the complete
    list of records: the query returned, and there is one record for each
    group it returned, in order, each the record of its group.  Or it
    calls [fail_json], with the failure of a framework helper or with a
    message of the module, and then no query has returned (in
    ec2_asg_facts none was even issued).  Or an exception leaves the
    module uncaught, and then again no query has returned.  So no failure
    comes with records, complete or partial. *)
Theorem all_or_nothing `{!module_utils_ec2} :
  (∀ w : ec2_asg_facts.env,
     let r := run (ec2_asg_facts.main w) in
     (∃ module connection all_asgs records,
        asg_run.connected w module connection ∧
        boto.get_all_groups connection (asg_more.query_names module)
          = inr all_asgs ∧
        returned_query r.2 =
          Some (get_all_groups_call (asg_more.query_names module)) ∧
        r.1 = inl (ExitJson {[ "asgs" := VList (VDict <$> records) ]}) ∧
        Forall2 asg_spec.describes all_asgs records) ∨
     (∃ kwargs,
        r.1 = inl (Failed (FailJson kwargs)) ∧ queries r.2 = [] ∧
        (asg_spec.helper_stops w (FailJson kwargs) ∨
         ∃ msg, kwargs = {[ "msg" := VStr msg ]})) ∨
     (∃ e, r.1 = inl (Failed (Uncaught e)) ∧ returned_query r.2 = None)) ∧
  (∀ w : ec2_group_facts.env,
     let r := run (ec2_group_facts.main w) in
     (∃ module connection reply,
        group_run.connected w module connection ∧
        boto3.describe_security_groups connection
          (ansible_dict_to_boto3_filter_list
             (ec2_group_facts.filter_of module)) = inr reply ∧
        returned_query r.2 =
          Some (describe_security_groups_call
                  (ansible_dict_to_boto3_filter_list
                     (ec2_group_facts.filter_of module))) ∧
        r.1 = inl (ExitJson {[ "security_groups" :=
                VList (VDict <$> (camel_dict_to_snake_dict
                                    <$> boto3.SecurityGroups reply)) ]})) ∨
     (∃ kwargs,
        r.1 = inl (Failed (FailJson kwargs)) ∧ returned_query r.2 = None ∧
        (group_spec.helper_stops w (FailJson kwargs) ∨
         ∃ msg, kwargs !! "msg" = Some (VStr msg))) ∨
     (∃ e, r.1 = inl (Failed (Uncaught e)) ∧ returned_query r.2 = None)).
Proof.
  split; intros w r; subst r.
  - destruct (asg_run_cases w)
      as [(f & Hh & ->)
         |[(msg & _ & ->)
          |[(region & url & kw & e & Hi & Hc & [[Hcls ->]|[Hcls ->]])
           |(module & connection & c & Hconn & Hq &
             [(e & Hg & ->)|(all_asgs & Hg & ->)])]]]; simpl.
    + destruct f as [kwargs|e].
      * right; left. exists kwargs. eauto.
      * right; right. by exists e.
    + right; left. eexists. split; [done|]. split; [done|]. right. by eexists.
    + right; left. eexists. split; [done|].
      split; [by apply queries_connect_only|]. right. by eexists.
    + right; right. exists e. split; [done|]. unfold returned_query.
      by rewrite queries_connect_only.
    + right; right. exists e. split; [done|]. unfold returned_query.
      by rewrite queries_connect_then.
    + left. exists module, connection, all_asgs, (ec2_asg_facts.data <$> all_asgs).
      split; [done|]. split; [done|]. split; [|split; [done|]].
      * unfold returned_query. by rewrite queries_connect_then.
      * apply results_describe.
  - destruct (group_run_cases w)
      as [(f & Hh & ->)
         |[(msg & _ & ->)
          |(module & connection & Hconn &
            [(e & Hq & ->)|(reply & Hq & ->)])]]; simpl.
    + destruct f as [kwargs|e].
      * right; left. exists kwargs. eauto.
      * right; right. by exists e.
    + right; left. eexists. split; [done|]. split; [done|]. right.
      exists msg. by rewrite lookup_singleton_eq.
    + assert (Hret : returned_query
                [Ev (describe_security_groups_call
                       (ansible_dict_to_boto3_filter_list
                          (ec2_group_facts.filter_of module))) (Some e)]
              = None)
        by (unfold returned_query; by rewrite queries_only).
      destruct (decide (exc_cls e = ClientError)); [|right; right; eauto].
      destruct (camel_dict_to_snake_dict (exc_response e) !! "msg");
        [right; right; eauto|].
      right; left. eexists. split; [done|]. split; [done|]. right.
      exists (exc_message e). by rewrite lookup_insert_eq.
    + left. exists module, connection, reply.
      split; [done|]. split; [done|]. split; [|done].
      unfold returned_query. by rewrite queries_only.
Qed.

(** C3, as stated, fails: when [get_all_groups] raises, ec2_asg_facts
    ends in neither [exit_json] nor [fail_json]. *)
Lemma uncaught_is_a_third_outcome :
  ¬ two_outcomes
      (run (ec2_asg_facts.main
              (samples.asg_env None (Some "us-east-1")
                 (inr (more_samples.broken_autoscale
                         more_samples.throttled))))).
Proof. intros [[kwargs Hexit]|[kwargs Hfail]]; discriminate. Qed.

(** ** Filters are optional *)

(** C7.  Without filter parameters both modules still query and return
    what the query yields.  ec2_asg_facts calls [get_all_groups(None)], as
    its only query, and exits with one record for each group returned, in
    order, each the record of its group.  ec2_group_facts builds the empty
    filter dict, calls [describe_security_groups] with the filter list
    made from it, as its only call, and exits with one record for each
    group returned, the snake-cased group.  That filter list is empty for
    every conversion that gives one entry per key of the dict. *)
Theorem unfiltered_query `{!module_utils_ec2} :
  (∀ (w : ec2_asg_facts.env) connection all_asgs,
     asg_run.connected w {| ec2_asg_facts.names := None |} connection →
     boto.get_all_groups connection None = inr all_asgs →
     ∃ records,
       (run (ec2_asg_facts.main w)).1 =
         inl (ExitJson {[ "asgs" := VList (VDict <$> records) ]}) ∧
       Forall2 asg_spec.describes all_asgs records ∧
       queries (run (ec2_asg_facts.main w)).2 =
         [Ev (get_all_groups_call None) None]) ∧
  ec2_group_facts.filter_of group_run.no_params = ∅ ∧
  (∀ (w : ec2_group_facts.env) connection reply,
     group_run.connected w group_run.no_params connection →
     boto3.describe_security_groups connection
       (ansible_dict_to_boto3_filter_list ∅) = inr reply →
     run (ec2_group_facts.main w) =
       (inl (ExitJson {[ "security_groups" :=
               VList (VDict <$> (camel_dict_to_snake_dict
                                   <$> boto3.SecurityGroups reply)) ]}),
        [Ev (describe_security_groups_call
               (ansible_dict_to_boto3_filter_list ∅)) None])) ∧
  ((∀ d : pydict, length (ansible_dict_to_boto3_filter_list d) = size d) →
   ansible_dict_to_boto3_filter_list
     (ec2_group_facts.filter_of group_run.no_params) = []).
Proof.
  split; [|split; [done|split]].
  - intros w connection all_asgs Hconn Hq.
    destruct (asg_main_connected w _ connection [] Hconn) as (c & Hc & Hrun).
    unfold run. rewrite Hrun. simpl. rewrite Hq. simpl.
    exists (ec2_asg_facts.data <$> all_asgs).
    split; [done|]. split; [apply results_describe|].
    by apply queries_connect_then.
  - intros w connection reply Hconn Hq.
    unfold run. rewrite (group_main_connected _ _ _ _ Hconn).
    assert (Hq' : boto3.describe_security_groups connection
                    (ansible_dict_to_boto3_filter_list
                       (ec2_group_facts.filter_of group_run.no_params))
                  = inr reply) by exact Hq.
    by rewrite (list_groups_reply _ _ _ _ Hq').
  - intros Hsize. apply length_zero_iff_nil. by rewrite Hsize.
Qed.

Lemma unfiltered_query_sample :
  (let w := samples.asg_env None (Some "us-east-1") (inr samples.autoscale) in
   ∃ records,
     (run (ec2_asg_facts.main w)).1 =
       inl (ExitJson {[ "asgs" := VList (VDict <$> records) ]}) ∧
     Forall2 asg_spec.describes [samples.web_asg; samples.bare_asg] records ∧
     queries (run (ec2_asg_facts.main w)).2 =
       [Ev (get_all_groups_call None) None]) ∧
  (let w := samples.group_env group_run.no_params (Some "us-east-1")
              (samples.ec2 (inr [samples.db_group])) in
   run (ec2_group_facts.main (H := samples.utils) w) =
     (inl (ExitJson {[ "security_groups" :=
             VList (VDict <$> (camel_dict_to_snake_dict
                                 (module_utils_ec2 := samples.utils)
                                 <$> [samples.db_group])) ]}),
      [Ev (describe_security_groups_call []) None])) ∧
  ansible_dict_to_boto3_filter_list (module_utils_ec2 := samples.utils)
    (ec2_group_facts.filter_of group_run.no_params) = [].
Proof.
  destruct (unfiltered_query (H := samples.utils))
    as (Hasg & _ & Hgroup & Hempty).
  split; [|split].
  - intros w. apply (Hasg w samples.autoscale);
      [sample_connected | reflexivity].
  - intros w.
    apply (Hgroup w (samples.ec2 (inr [samples.db_group]))
             {| boto3.SecurityGroups := [samples.db_group] |});
      [sample_connected | reflexivity].
  - apply Hempty. intros d. simpl.
    by rewrite length_fmap, length_map_to_list.
Defined.

(** ** Failure messages *)







(** * Further properties of the two modules *)

(** ** Exceptions nobody catches *)

(** X1.  ec2_asg_facts does not guard its query: once the connection is
    open, an exception raised by [get_all_groups] (of whatever class,
    also one that is caught around [connect_to_aws]) leaves [main]
    uncaught.  The run ends without [fail_json] and without [exit_json],
    after that one query. *)
Theorem asg_query_exception_propagates (w : ec2_asg_facts.env)
    module connection e :
  asg_run.connected w module connection →
  boto.get_all_groups connection (asg_more.query_names module) = inl e →
  (run (ec2_asg_facts.main w)).1 = inl (Failed (Uncaught e)) ∧
  ∃ c, is_query c = false ∧
       (run (ec2_asg_facts.main w)).2 =
       [Ev c None;
        Ev (get_all_groups_call (asg_more.query_names module)) (Some e)].
Proof.
  intros Hconn Hq.
  destruct (asg_main_connected w module connection [] Hconn) as (c & Hc & Hrun).
  unfold run. rewrite Hrun. clear Hrun. simpl.
  assert (Hn : (if truthy_list (ec2_asg_facts.names module)
                then ec2_asg_facts.names module else None)
               = asg_more.query_names module).
  { unfold asg_more.query_names.
    by destruct (ec2_asg_facts.names module) as [[|n ns]|]. }
  rewrite Hn, Hq. simpl. split; [done|]. by exists c.
Qed.

Lemma asg_query_exception_propagates_sample :
  let w := samples.asg_env None (Some "us-east-1")
             (inr (more_samples.broken_autoscale more_samples.throttled)) in
  (run (ec2_asg_facts.main w)).1 =
    inl (Failed (Uncaught more_samples.throttled)) ∧
  ∃ c, is_query c = false ∧
       (run (ec2_asg_facts.main w)).2 =
       [Ev c None;
        Ev (get_all_groups_call None) (Some more_samples.throttled)].
Proof.
  intros w.
  apply (asg_query_exception_propagates w {| ec2_asg_facts.names := None |}
           (more_samples.broken_autoscale more_samples.throttled));
    [sample_connected | reflexivity].
Defined.

(** X2.  Around [connect_to_aws] ec2_asg_facts catches
    [NoAuthHandlerFound] and [AnsibleAWSError] only: an exception of any
    other class leaves [main] uncaught, and no query is issued. *)
Theorem asg_connect_exception_propagates (w : ec2_asg_facts.env)
    module region ec2_url kw e :
  ec2_asg_facts.AnsibleModule w = inr module →
  ec2_asg_facts.HAS_BOTO w = true →
  ec2_asg_facts.get_aws_connection_info w = inr (region, ec2_url, kw) →
  truthy_str region = true →
  ec2_asg_facts.connect_to_aws w region kw = inl e →
  exc_cls e ≠ NoAuthHandlerFound →
  exc_cls e ≠ AnsibleAWSError →
  run (ec2_asg_facts.main w) =
  (inl (Failed (Uncaught e)), [Ev (connect_to_aws_call region kw) (Some e)]).
Proof.
  intros Hm Hb Hi Hr Hc Hn Ha.
  unfold run, ec2_asg_facts.main, mbind, M_bind, helper, try_except, sdk.
  rewrite Hm, Hb, Hi. simpl. rewrite Hr, Hc. simpl.
  rewrite bool_decide_eq_false_2; [done|].
  intros [?|Hin%list_elem_of_singleton]%elem_of_cons; done.
Qed.

Lemma asg_connect_exception_propagates_sample :
  run (ec2_asg_facts.main
         (samples.asg_env None (Some "us-east-1")
            (inl more_samples.timed_out))) =
  (inl (Failed (Uncaught more_samples.timed_out)),
   [Ev (connect_to_aws_call (Some "us-east-1") ∅)
       (Some more_samples.timed_out)]).
Proof.
  apply (asg_connect_exception_propagates _
           {| ec2_asg_facts.names := None |} (Some "us-east-1") None ∅);
    try reflexivity; discriminate.
Defined.

(** X3.  ec2_group_facts catches [ClientError] only: any other exception
    raised by [describe_security_groups] ([NoCredentialsError], which the
    module imports, included) leaves the module uncaught, after that one
    query and without [fail_json]. *)
Theorem group_exception_propagates `{!module_utils_ec2}
    (w : ec2_group_facts.env) module connection e :
  group_run.connected w module connection →
  boto3.describe_security_groups connection
    (ansible_dict_to_boto3_filter_list (ec2_group_facts.filter_of module))
    = inl e →
  exc_cls e ≠ ClientError →
  run (ec2_group_facts.main w) =
  (inl (Failed (Uncaught e)),
   [Ev (describe_security_groups_call
          (ansible_dict_to_boto3_filter_list
             (ec2_group_facts.filter_of module))) (Some e)]).
Proof.
  intros Hconn Hq Hcls.
  unfold run. rewrite (group_main_connected _ _ _ _ Hconn).
  rewrite (list_groups_raises _ _ _ _ Hq). by rewrite decide_False.
Qed.

Lemma group_exception_propagates_sample :
  (run (ec2_group_facts.main (H := samples.utils)
          (samples.group_env (samples.by_name "database_server")
             (Some "us-east-1")
             (samples.ec2 (inl more_samples.timed_out))))).1 =
  inl (Failed (Uncaught more_samples.timed_out)).
Proof.
  rewrite (group_exception_propagates (H := samples.utils) _
             (samples.by_name "database_server")
             (samples.ec2 (inl more_samples.timed_out))
             more_samples.timed_out);
    [reflexivity | sample_connected | reflexivity | discriminate].
Defined.

(** X4.  The error report of ec2_group_facts spreads the snake-cased
    error response into the keyword arguments of [fail_json] next to
    [msg].  When that response has a key [msg] of its own, the call is
    refused with a [TypeError] and the module ends with this exception
    instead of a failure report. *)
Theorem group_msg_clash `{!module_utils_ec2}
    (w : ec2_group_facts.env) module connection e :
  group_run.connected w module connection →
  boto3.describe_security_groups connection
    (ansible_dict_to_boto3_filter_list (ec2_group_facts.filter_of module))
    = inl e →
  exc_cls e = ClientError →
  is_Some (camel_dict_to_snake_dict (exc_response e) !! "msg") →
  (run (ec2_group_facts.main w)).1 = inl (Failed (Uncaught duplicate_msg)).
Proof.
  intros Hconn Hq Hcls [v Hv].
  unfold run. rewrite (group_main_connected _ _ _ _ Hconn).
  rewrite (list_groups_raises _ _ _ _ Hq).
  rewrite decide_True by done. by rewrite Hv.
Qed.

Lemma group_msg_clash_sample :
  (run (ec2_group_facts.main (H := samples.utils)
          (samples.group_env (samples.by_name "database_server")
             (Some "us-east-1")
             (samples.ec2 (inl more_samples.clashing))))).1 =
  inl (Failed (Uncaught duplicate_msg)).
Proof.
  apply (group_msg_clash (H := samples.utils) _
           (samples.by_name "database_server")
           (samples.ec2 (inl more_samples.clashing)) more_samples.clashing);
    [sample_connected | reflexivity | reflexivity | ].
  exists (VStr "inner"). vm_compute. reflexivity.
Defined.

(** ** The module's own checks come first *)

(** X5.  When the SDK could not be imported, either module fails with its
    fixed message before anything else is looked at: no connection
    information is read and the SDK log is empty, whatever the region and
    the parameters are. *)
Theorem import_guard `{!module_utils_ec2} :
  (∀ (w : ec2_asg_facts.env) module,
     ec2_asg_facts.AnsibleModule w = inr module →
     ec2_asg_facts.HAS_BOTO w = false →
     run (ec2_asg_facts.main w) =
     (inl (Failed (FailJson
             {[ "msg" := VStr "boto required for this module" ]})), [])) ∧
  (∀ (w : ec2_group_facts.env) module,
     ec2_group_facts.AnsibleModule w = inr module →
     ec2_group_facts.HAS_BOTO3 w = false →
     run (ec2_group_facts.main w) =
     (inl (Failed (FailJson
             {[ "msg" := VStr "boto3 required for this module" ]})), [])).
Proof.
  split; intros w module Hm Hb.
  - unfold run, ec2_asg_facts.main, mbind, M_bind, helper.
    by rewrite Hm, Hb.
  - unfold run, ec2_group_facts.main, mbind, M_bind, helper.
    by rewrite Hm, Hb.
Qed.

Lemma import_guard_sample :
  run (ec2_asg_facts.main (more_samples.asg_env_no_boto None)) =
    (inl (Failed (FailJson
            {[ "msg" := VStr "boto required for this module" ]})), []) ∧
  run (ec2_group_facts.main (H := samples.utils)
         (more_samples.group_env_no_boto3 None)) =
    (inl (Failed (FailJson
            {[ "msg" := VStr "boto3 required for this module" ]})), []).
Proof.
  split.
  - by apply (proj1 (import_guard (H := samples.utils)) _
                {| ec2_asg_facts.names := None |}).
  - by apply (proj2 (import_guard (H := samples.utils)) _
                group_run.no_params).
Defined.

(** X6.  A region that is [None] or the empty string counts as missing:
    either module then fails with [region must be specified] without
    opening a connection or issuing a query. *)
Theorem region_guard `{!module_utils_ec2} :
  (∀ (w : ec2_asg_facts.env) module region ec2_url kw,
     ec2_asg_facts.AnsibleModule w = inr module →
     ec2_asg_facts.HAS_BOTO w = true →
     ec2_asg_facts.get_aws_connection_info w = inr (region, ec2_url, kw) →
     region = None ∨ region = Some "" →
     run (ec2_asg_facts.main w) =
     (inl (Failed (FailJson
             {[ "msg" := VStr "region must be specified" ]})), [])) ∧
  (∀ (w : ec2_group_facts.env) module region ec2_url kw,
     ec2_group_facts.AnsibleModule w = inr module →
     ec2_group_facts.HAS_BOTO3 w = true →
     ec2_group_facts.get_aws_connection_info w = inr (region, ec2_url, kw) →
     region = None ∨ region = Some "" →
     run (ec2_group_facts.main w) =
     (inl (Failed (FailJson
             {[ "msg" := VStr "region must be specified" ]})), [])).
Proof.
  split; intros w module region ec2_url kw Hm Hb Hi Hr.
  - unfold run, ec2_asg_facts.main, mbind, M_bind, helper.
    rewrite Hm, Hb, Hi. by destruct Hr as [-> | ->].
  - unfold run, ec2_group_facts.main, mbind, M_bind, helper.
    rewrite Hm, Hb, Hi. by destruct Hr as [-> | ->].
Qed.

Lemma region_guard_sample :
  run (ec2_asg_facts.main
         (samples.asg_env (Some ["frontend-prod"]) (Some "")
            (inr samples.autoscale))) =
    (inl (Failed (FailJson
            {[ "msg" := VStr "region must be specified" ]})), []) ∧
  run (ec2_group_facts.main (H := samples.utils)
         (samples.group_env (samples.by_name "database_server") None
            (samples.ec2 (inr [samples.db_group])))) =
    (inl (Failed (FailJson
            {[ "msg" := VStr "region must be specified" ]})), []).
Proof.
  split.
  - apply (proj1 (region_guard (H := samples.utils)) _
             {| ec2_asg_facts.names := Some ["frontend-prod"] |}
             (Some "") None ∅); try reflexivity. by right.
  - apply (proj2 (region_guard (H := samples.utils)) _
             (samples.by_name "database_server") None None ∅);
      try reflexivity. by left.
Defined.

(** ** What reaches the query *)

(** X7.  A non-empty [names] list reaches [get_all_groups] unchanged (same
    names, same order), as the only query of the run, right after the
    connection was opened. *)
Theorem asg_names_passed_on (w : ec2_asg_facts.env) module connection n ns :
  asg_run.connected w module connection →
  ec2_asg_facts.names module = Some (n :: ns) →
  ∃ c raised,
    is_query c = false ∧
    raised = match boto.get_all_groups connection (Some (n :: ns)) with
             | inl e => Some e
             | inr _ => None
             end ∧
    (run (ec2_asg_facts.main w)).2 =
    [Ev c None; Ev (get_all_groups_call (Some (n :: ns))) raised].
Proof.
  intros Hconn Hn.
  destruct (asg_main_connected w module connection [] Hconn) as (c & Hc & Hrun).
  unfold run. rewrite Hrun. clear Hrun. rewrite Hn. simpl.
  exists c. eexists. split; [done|]. split; [reflexivity|].
  by destruct (boto.get_all_groups connection (Some (n :: ns))).
Qed.

Lemma asg_names_passed_on_sample :
  ∃ c raised,
    is_query c = false ∧
    raised = None ∧
    (run (ec2_asg_facts.main
            (samples.asg_env (Some ["frontend-prod"; "backend-prod"])
               (Some "us-east-1") (inr samples.autoscale)))).2 =
    [Ev c None;
     Ev (get_all_groups_call (Some ["frontend-prod"; "backend-prod"])) raised].
Proof.
  apply (asg_names_passed_on _
           {| ec2_asg_facts.names := Some ["frontend-prod"; "backend-prod"] |}
           samples.autoscale);
    [sample_connected | reflexivity].
Defined.

(** X8.  ec2_asg_facts unpacks [ec2_url] from [get_aws_connection_info]
    and never uses it: two invocations that differ only in the [ec2_url]
    reported have the same SDK calls and the same outcome. *)
Theorem asg_ignores_ec2_url (w : ec2_asg_facts.env) (ec2_url : option string) :
  run (ec2_asg_facts.main (asg_more.with_ec2_url w ec2_url)) =
  run (ec2_asg_facts.main w).
Proof.
  unfold run, ec2_asg_facts.main, asg_more.with_ec2_url, mbind, M_bind,
    helper. simpl.
  destruct (ec2_asg_facts.AnsibleModule w) as [f|module]; [done|].
  destruct (ec2_asg_facts.HAS_BOTO w); [|done]. simpl.
  by destruct (ec2_asg_facts.get_aws_connection_info w)
    as [f|[[region url] kw]].
Qed.

(** ** Tags and instances in a record *)

Lemma foldl_insert_dom {A : Type} (fk : A → string) (fv : A → pyobj)
    (l : list A) (acc : pydict) :
  dom (foldl (λ d x, <[fk x := fv x]> d) acc l) =
  dom acc ∪ list_to_set (fk <$> l).
Proof.
  revert acc. induction l as [|x l IH]; intros acc; simpl.
  - set_solver.
  - rewrite IH, dom_insert_L. set_solver.
Qed.

Lemma dict_of_tags_dom (ts : list boto.Tag) :
  dom (dict_of ((λ t, (boto.key t, boto.value t)) <$> ts)) =
  list_to_set (boto.key <$> ts).
Proof.
  unfold dict_of. rewrite foldl_fmap. simpl.
  rewrite (foldl_insert_dom boto.key boto.value). set_solver.
Qed.

Lemma filter_none {A : Type} (P : A → Prop) `{!∀ x, Decision (P x)}
    (l : list A) :
  (∀ x, x ∈ l → ¬ P x) → filter P l = [].
Proof.
  induction l as [|y l IH]; intros Hl; [done|].
  rewrite filter_cons, decide_False by (apply Hl; by left).
  apply IH. intros x Hx. apply Hl. by right.
Qed.

Lemma filter_key_NoDup {A : Type} (f : A → string) (l : list A) (x : A) :
  NoDup (f <$> l) → x ∈ l → filter (λ y, f y = f x) l = [x].
Proof.
  induction l as [|y l IH]; intros Hnd Hx.
  - by apply elem_of_nil in Hx.
  - rewrite fmap_cons in Hnd. apply NoDup_cons in Hnd as [Hy Hnd].
    rewrite filter_cons.
    apply elem_of_cons in Hx as [<-|Hx].
    + rewrite decide_True by done. f_equal.
      apply filter_none. intros z Hz Hfz. apply Hy.
      rewrite <- Hfz. by apply list_elem_of_fmap_2.
    + rewrite decide_False; [by apply IH|].
      intros Hfy. apply Hy. rewrite Hfy. by apply list_elem_of_fmap_2.
Qed.

Lemma size_list_to_set_le (l : list string) :
  size (list_to_set l : gset string) ≤ length l.
Proof.
  induction l as [|x l IH].
  - rewrite list_to_set_nil, size_empty. done.
  - rewrite list_to_set_cons, size_union_alt, size_singleton. simpl length.
    assert (Hsub : size (list_to_set l ∖ {[x]} : gset string)
                   ≤ size (list_to_set l : gset string))
      by (apply subseteq_size; set_solver).
    lia.
Qed.

(** X9.  For a group whose tags have pairwise distinct keys, the dict
    under [tags] has exactly one entry per tag, and looking up the key of
    any tag gives back that tag's value. *)
Theorem asg_tags_distinct_keys (asg : boto.AutoScalingGroup) t ts :
  boto.tags asg = Some (t :: ts) →
  NoDup (boto.key <$> (t :: ts)) →
  ∃ d : pydict,
    ec2_asg_facts.data asg !! "tags" = Some (VDict d) ∧
    size d = length (t :: ts) ∧
    ∀ t', t' ∈ t :: ts → d !! boto.key t' = Some (boto.value t').
Proof.
  intros Ht Hnd. eexists. split; [by apply data_tags|]. split.
  - rewrite <- size_dom, dict_of_tags_dom.
    rewrite size_list_to_set by done. by rewrite length_fmap.
  - intros t' Ht'. rewrite dict_of_tags_lookup.
    by rewrite (filter_key_NoDup boto.key _ t' Hnd Ht').
Qed.

Lemma asg_tags_distinct_keys_sample :
  ∃ d : pydict,
    ec2_asg_facts.data more_samples.tagged_asg !! "tags" = Some (VDict d) ∧
    size d = 2 ∧
    ∀ t', t' ∈ more_samples.two_tags → d !! boto.key t' = Some (boto.value t').
Proof.
  apply (asg_tags_distinct_keys more_samples.tagged_asg
           {| boto.key := "env"; boto.value := VStr "prod" |}
           [ {| boto.key := "team"; boto.value := VStr "web" |} ]);
    [reflexivity | compute_done].
Defined.

(** X10.  A record never carries an empty [tags] dict or an empty
    [instances] list.  Whenever [tags] is present its value is a non-empty
    dict whose keys are exactly the keys of the group's tags (so it has at
    most as many entries as there are tags); whenever [instances] is
    present its value is the non-empty list of the ids of the group's
    instances, one per instance and in their order. *)
Theorem asg_record_parts_nonempty (asg : boto.AutoScalingGroup) :
  (∀ v, ec2_asg_facts.data asg !! "tags" = Some v →
     ∃ (d : pydict) ts,
       v = VDict d ∧ boto.tags asg = Some ts ∧ ts ≠ [] ∧ d ≠ ∅ ∧
       dom d = list_to_set (boto.key <$> ts) ∧ size d ≤ length ts) ∧
  (∀ v, ec2_asg_facts.data asg !! "instances" = Some v →
     ∃ rest,
       boto.instances asg = Some rest ∧ rest ≠ [] ∧
       v = VList (boto.instance_id <$> rest)).
Proof.
  split; intros v Hv.
  - destruct (proj1 (data_keys asg "tags") (mk_is_Some _ _ Hv))
      as [Hb|[[_ (t & ts & Ht)]|[? _]]]; [| |done].
    { exfalso. revert Hb. unfold asg_run.base_keys.
      rewrite !elem_of_cons, elem_of_nil. naive_solver. }
    rewrite (data_tags _ _ _ Ht) in Hv.
    pose proof (dict_of_tags_dom (t :: ts)) as Hdom.
    revert Hv Hdom.
    generalize (dict_of ((λ t, (boto.key t, boto.value t)) <$> t :: ts)).
    intros d [= <-] Hdom.
    exists d, (t :: ts). split; [done|]. split; [done|]. split; [done|].
    split; [|split; [done|]].
    + intros ->. rewrite dom_empty_L in Hdom. set_solver.
    + rewrite <- size_dom, Hdom. rewrite <- (length_fmap boto.key).
      apply size_list_to_set_le.
  - destruct (proj1 (data_keys asg "instances") (mk_is_Some _ _ Hv))
      as [Hb|[[? _]|[_ (i & rest & Hi)]]]; [|done|].
    { exfalso. revert Hb. unfold asg_run.base_keys.
      rewrite !elem_of_cons, elem_of_nil. naive_solver. }
    rewrite (data_instances _ _ _ Hi) in Hv. injection Hv as <-.
    by exists (i :: rest).
Qed.

(** ** The filter dict *)

(** X11.  The filter dict has as many entries as there are parameters
    among [name], [description], [vpc_id], [group_id] supplied with a
    truthy value: no parameter overwrites the entry of another. *)
Theorem group_filter_size (module : ec2_group_facts.params) :
  size (ec2_group_facts.filter_of module) = group_more.supplied_count module.
Proof.
  unfold ec2_group_facts.filter_of, group_more.supplied_count.
  rewrite !filter_cons, filter_nil.
  destruct (truthy_str (ec2_group_facts.name module)),
           (truthy_str (ec2_group_facts.description module)),
           (truthy_str (ec2_group_facts.vpc_id module)),
           (truthy_str (ec2_group_facts.group_id module));
    simpl; rewrite ?map_size_insert, ?map_size_empty;
    rewrite ?lookup_insert_ne, ?lookup_empty by done; reflexivity.
Qed.
